(** * 7Semi AD849x thermocouple amplifier driver: model and properties

    A shallow embedding of the class [AD849x_7Semi]
    (src/7Semi_AD849x.h, src/7Semi_AD849x.cpp).

    - C integers are [Z] with the conversions written out;
    - [float] and [double] are IEEE-754 binary floating-point numbers,
      computed with the executable operations of [SpecFloat] (round to
      nearest, ties to even); every C operator is one such operation, in
      the type that the usual arithmetic conversions give its operands;
    - the methods run in a small state-and-trap monad over a machine made
      of the object's fields and the board (ADC input, pin modes). *)

From Stdlib Require Import ZArith List Bool Lia.
From Stdlib Require Import Floats.SpecFloat.
Import ListNotations.

Local Open Scope Z_scope.

(** ** C data models of the supported boards *)

(** The widths of [int] and [double] are implementation-defined.  The two
    data models of the Arduino cores: 8-bit AVR (16-bit [int], [double] is
    a 32-bit float) and the 32-bit cores (32-bit [int], 64-bit [double]). *)
Inductive Platform : Type := AVR | ILP32.

Definition int_bits (P : Platform) : Z :=
  match P with AVR => 16 | ILP32 => 32 end.

Definition INT_MAX (P : Platform) : Z := 2 ^ (int_bits P - 1) - 1.

Definition UINT16_MAX : Z := 65535.

(** Conversion to an unsigned, respectively signed, integer of [w] bits. *)
Definition to_uint (w x : Z) : Z := x mod 2 ^ w.

Definition to_sint (w x : Z) : Z := (x + 2 ^ (w - 1)) mod 2 ^ w - 2 ^ (w - 1).

Definition to_int (P : Platform) (x : Z) : Z := to_sint (int_bits P) x.

(** ** Floating point *)

Record format : Type := { fprec : Z; femax : Z }.

Definition binary32 : format := {| fprec := 24; femax := 128 |}.
Definition binary64 : format := {| fprec := 53; femax := 1024 |}.

Definition double_format (P : Platform) : format :=
  match P with AVR => binary32 | ILP32 => binary64 end.

Definition fp_add (f : format) := SFadd (fprec f) (femax f).
Definition fp_sub (f : format) := SFsub (fprec f) (femax f).
Definition fp_mul (f : format) := SFmul (fprec f) (femax f).
Definition fp_div (f : format) := SFdiv (fprec f) (femax f).
Definition fp_lt : spec_float -> spec_float -> bool := SFltb.

(** Conversion of an integer, and of a floating-point number of another
    format, to the format [f]. *)
Definition fp_of_Z (f : format) (n : Z) : spec_float :=
  binary_normalize (fprec f) (femax f) n 0 false.

Definition fp_conv (f : format) (x : spec_float) : spec_float :=
  match x with
  | S754_finite s m e => binary_round (fprec f) (femax f) s m e
  | _ => x
  end.

(** The decimal literal [num/den], correctly rounded. *)
Definition fp_lit (f : format) (num den : Z) : spec_float :=
  fp_div f (fp_of_Z f num) (fp_of_Z f den).

Definition isnan (x : spec_float) : bool :=
  match x with S754_nan => true | _ => false end.

Definition is_finite (x : spec_float) : bool :=
  match x with S754_zero _ | S754_finite _ _ _ => true | _ => false end.

Definition is_zero (x : spec_float) : bool :=
  match x with S754_zero _ => true | _ => false end.

Definition float : Type := spec_float.
Definition double : Type := spec_float.

Definition NAN : float := S754_nan.

Declare Scope float_scope.
Delimit Scope float_scope with flt.
Infix "+" := (fp_add binary32) : float_scope.
Infix "-" := (fp_sub binary32) : float_scope.
Infix "*" := (fp_mul binary32) : float_scope.
Infix "/" := (fp_div binary32) : float_scope.

Definition float_of_int (n : Z) : float := fp_of_Z binary32 n.

(** ** The object and the board *)

Record Sensor : Type := {
  analog_pin : Z;                 (* uint8_t *)
  reference_voltage : float;
  resolution : Z;                 (* uint16_t *)
  offset_voltage : float;
  sensitivity : float;
  offset : float;
  gain : float;
  filtered_temperature : float;
  avg_sample : Z                  (* uint8_t *)
}.

Inductive PinMode : Type := INPUT | OUTPUT | INPUT_PULLUP.

(** The board: [adc pin t] is the count that the [t]-th conversion returns
    when it is made on [pin]; [conversions] counts the conversions made so
    far; [pin_modes] logs the calls of [pinMode], latest first. *)
Record Board : Type := {
  adc : Z -> nat -> Z;
  conversions : nat;
  pin_modes : list (Z * PinMode)
}.

Record Machine : Type := { sensor : Sensor; board : Board }.

Definition set_analog_pin (v : Z) (s : Sensor) : Sensor :=
  {| analog_pin := v; reference_voltage := reference_voltage s;
     resolution := resolution s; offset_voltage := offset_voltage s;
     sensitivity := sensitivity s; offset := offset s; gain := gain s;
     filtered_temperature := filtered_temperature s;
     avg_sample := avg_sample s |}.

Definition set_reference_voltage (v : float) (s : Sensor) : Sensor :=
  {| analog_pin := analog_pin s; reference_voltage := v;
     resolution := resolution s; offset_voltage := offset_voltage s;
     sensitivity := sensitivity s; offset := offset s; gain := gain s;
     filtered_temperature := filtered_temperature s;
     avg_sample := avg_sample s |}.

Definition set_resolution (v : Z) (s : Sensor) : Sensor :=
  {| analog_pin := analog_pin s; reference_voltage := reference_voltage s;
     resolution := v; offset_voltage := offset_voltage s;
     sensitivity := sensitivity s; offset := offset s; gain := gain s;
     filtered_temperature := filtered_temperature s;
     avg_sample := avg_sample s |}.

Definition set_offset_voltage (v : float) (s : Sensor) : Sensor :=
  {| analog_pin := analog_pin s; reference_voltage := reference_voltage s;
     resolution := resolution s; offset_voltage := v;
     sensitivity := sensitivity s; offset := offset s; gain := gain s;
     filtered_temperature := filtered_temperature s;
     avg_sample := avg_sample s |}.

Definition set_sensitivity (v : float) (s : Sensor) : Sensor :=
  {| analog_pin := analog_pin s; reference_voltage := reference_voltage s;
     resolution := resolution s; offset_voltage := offset_voltage s;
     sensitivity := v; offset := offset s; gain := gain s;
     filtered_temperature := filtered_temperature s;
     avg_sample := avg_sample s |}.

Definition set_offset (v : float) (s : Sensor) : Sensor :=
  {| analog_pin := analog_pin s; reference_voltage := reference_voltage s;
     resolution := resolution s; offset_voltage := offset_voltage s;
     sensitivity := sensitivity s; offset := v; gain := gain s;
     filtered_temperature := filtered_temperature s;
     avg_sample := avg_sample s |}.

Definition set_gain (v : float) (s : Sensor) : Sensor :=
  {| analog_pin := analog_pin s; reference_voltage := reference_voltage s;
     resolution := resolution s; offset_voltage := offset_voltage s;
     sensitivity := sensitivity s; offset := offset s; gain := v;
     filtered_temperature := filtered_temperature s;
     avg_sample := avg_sample s |}.

Definition set_filtered_temperature (v : float) (s : Sensor) : Sensor :=
  {| analog_pin := analog_pin s; reference_voltage := reference_voltage s;
     resolution := resolution s; offset_voltage := offset_voltage s;
     sensitivity := sensitivity s; offset := offset s; gain := gain s;
     filtered_temperature := v;
     avg_sample := avg_sample s |}.

Definition set_avg_sample (v : Z) (s : Sensor) : Sensor :=
  {| analog_pin := analog_pin s; reference_voltage := reference_voltage s;
     resolution := resolution s; offset_voltage := offset_voltage s;
     sensitivity := sensitivity s; offset := offset s; gain := gain s;
     filtered_temperature := filtered_temperature s;
     avg_sample := v |}.

(** ** The monad of the methods

    A method maps the machine to a result and the machine it leaves, or to
    [None] where the C++ program has undefined behaviour (the integer
    division by zero of [readRaw]). *)
Definition Op (A : Type) : Type := Machine -> option (A * Machine).

Definition ret {A : Type} (a : A) : Op A := fun m => Some (a, m).

Definition bind {A B : Type} (c : Op A) (k : A -> Op B) : Op B :=
  fun m => match c m with
           | Some (a, m') => k a m'
           | None => None
           end.

Definition trap {A : Type} : Op A := fun _ => None.

Notation "x <- c ;; k" := (bind c (fun x => k))
  (at level 61, c at next level, right associativity).
Notation "c ;; k" := (bind c (fun _ => k))
  (at level 61, right associativity).

(** Reading the fields of the object, and assigning one of them. *)
Definition this : Op Sensor := fun m => Some (sensor m, m).

Definition assign (upd : Sensor -> Sensor) : Op unit :=
  fun m => Some (tt, {| sensor := upd (sensor m); board := board m |}).

Definition b2z (b : bool) : Z := if b then 1 else 0.

(** ** The Arduino core *)

Section Driver.

Variable P : Platform.

Definition to_double (x : float) : double := fp_conv (double_format P) x.
Definition to_float (x : double) : float := fp_conv binary32 x.

(** A [double] literal with an integral value, and one in decimal
    notation. *)
Definition dbl (n : Z) : double := fp_of_Z (double_format P) n.
Definition dec (num den : Z) : double := fp_lit (double_format P) num den.

Definition dadd : double -> double -> double := fp_add (double_format P).
Definition dsub : double -> double -> double := fp_sub (double_format P).
Definition dmul : double -> double -> double := fp_mul (double_format P).
Definition ddiv : double -> double -> double := fp_div (double_format P).

(** [int analogRead(uint8_t pin)]: one conversion on [pin]. *)
Definition analogRead (pin : Z) : Op Z :=
  fun m =>
    let b := board m in
    Some (to_int P (adc b pin (conversions b)),
          {| sensor := sensor m;
             board := {| adc := adc b;
                         conversions := S (conversions b);
                         pin_modes := pin_modes b |} |}).

(** [void pinMode(uint8_t pin, uint8_t mode)]. *)
Definition pinMode (pin : Z) (mode : PinMode) : Op unit :=
  fun m =>
    let b := board m in
    Some (tt,
          {| sensor := sensor m;
             board := {| adc := adc b;
                         conversions := conversions b;
                         pin_modes := (pin, mode) :: pin_modes b |} |}).

(** ** The class AD849x_7Semi *)

(** The constructor is empty: the fields with a default member initializer
    in the header get its value, the others keep what the memory [mem] of
    the object holds. *)
Definition AD849x_7Semi (mem : Sensor) : Sensor :=
  set_avg_sample 10
    (set_sensitivity (to_float (dec 5 1000))
       (set_offset_voltage (to_float (dec 125 100)) mem)).

Definition begin (analogPin : Z) (vRef : float) (adcResolution : Z) : Op unit :=
  assign (set_analog_pin analogPin) ;;
  assign (set_reference_voltage vRef) ;;
  assign (set_resolution adcResolution) ;;
  assign (set_offset (to_float (dbl 0))) ;;
  assign (set_gain (to_float (dbl 1))) ;;
  assign (set_filtered_temperature NAN) ;;
  assign (set_avg_sample 10) ;;
  s <- this ;;
  pinMode (analog_pin s) INPUT.

Definition setVref (vRef : float) : Op unit :=
  assign (set_reference_voltage vRef).

Definition setADCResolution (adcResolution : Z) : Op unit :=
  assign (set_resolution adcResolution).

Definition setOffsetVoltage (offset : float) : Op unit :=
  assign (set_offset_voltage offset).

Definition setSensitivity (voltsPerDegC : float) : Op unit :=
  assign (set_sensitivity voltsPerDegC).

Definition setSampling (samples : Z) : Op unit :=
  let samples := if samples =? 0 then 1 else samples in
  let samples := if samples >? 200 then 200 else samples in
  assign (set_avg_sample samples).

Definition getSampling : Op Z :=
  s <- this ;;
  ret (avg_sample s).

(** The loop of [readRaw]: [k] iterations are left, [value] is the
    [uint32_t] accumulator. *)
Fixpoint readRaw_loop (k : nat) (value : Z) : Op Z :=
  match k with
  | O => ret value
  | S k' =>
      s <- this ;;
      x <- analogRead (analog_pin s) ;;
      readRaw_loop k' (to_uint 32 (value + x))
  end.

Definition readRaw : Op Z :=
  s <- this ;;
  value <- readRaw_loop (Z.to_nat (avg_sample s)) 0 ;;
  s <- this ;;
  if avg_sample s =? 0 then trap
  else ret (to_int P (value / avg_sample s)).

Definition rawToVoltage (raw : Z) : Op float :=
  s <- this ;;
  ret ((float_of_int raw * reference_voltage s) / float_of_int (resolution s))%flt.

Definition readVoltage : Op float :=
  raw <- readRaw ;;
  rawToVoltage raw.

Definition voltageToCelsius (voltage : float) : Op float :=
  s <- this ;;
  let temp := ((voltage - offset_voltage s) / sensitivity s)%flt in
  let temp := ((temp * gain s) + offset s)%flt in
  ret temp.

Definition readCelsius : Op float :=
  v <- readVoltage ;;
  voltageToCelsius v.

Definition readFahrenheit : Op float :=
  c <- readCelsius ;;
  ret (to_float (dadd (ddiv (dmul (to_double c) (dbl 9)) (dbl 5)) (dbl 32))).

Definition readKelvin : Op float :=
  c <- readCelsius ;;
  ret (to_float (dadd (to_double c) (dec 27315 100))).

Definition calibrate (actualTempC : float) : Op unit :=
  measured <- readCelsius ;;
  assign (set_offset (actualTempC - measured)%flt).

Definition readFilteredTemperatureC (alpha : float) : Op float :=
  current <- readCelsius ;;
  s <- this ;;
  (if isnan (filtered_temperature s)
   then assign (set_filtered_temperature current)
   else ret tt) ;;
  s <- this ;;
  assign (set_filtered_temperature
            (to_float (dadd (to_double (alpha * current)%flt)
                            (dmul (dsub (dbl 1) (to_double alpha))
                                  (to_double (filtered_temperature s)))))) ;;
  s <- this ;;
  ret (filtered_temperature s).

Definition FaultDetect : Op Z :=
  v <- readVoltage ;;
  s <- this ;;
  ret (b2z (fp_lt (dec 1 10) (to_double v)
            && fp_lt (to_double v)
                 (dsub (to_double (reference_voltage s)) (dec 1 10)))).

End Driver.

(** ** Boards and values for the examples *)

(** A board whose ADC returns [raw] at every conversion, on every pin. *)
Definition steady_board (raw : Z) : Board :=
  {| adc := fun _ _ => raw; conversions := O; pin_modes := [] |}.

(** The memory of an object before its constructor runs. *)
Definition blank : Sensor :=
  {| analog_pin := 0; reference_voltage := NAN; resolution := 0;
     offset_voltage := NAN; sensitivity := NAN; offset := NAN; gain := NAN;
     filtered_temperature := NAN; avg_sample := 0 |}.

Definition machine0 (P : Platform) (raw : Z) : Machine :=
  {| sensor := AD849x_7Semi P blank; board := steady_board raw |}.

(** The [float] nearest to the decimal [num/den], as the literal
    [num/den] followed by [f] is. *)
Definition flit (num den : Z) : float := fp_lit binary32 num den.

(** The result of a method, and the machine it leaves. *)
Definition result {A : Type} (r : option (A * Machine)) : option A :=
  match r with Some (a, _) => Some a | None => None end.

Definition after {A : Type} (r : option (A * Machine)) (m : Machine) : Machine :=
  match r with Some (_, m') => m' | None => m end.

(** A sensor on pin 14 of a board with the steady input [raw], after
    [begin] with the reference voltage [vRef] and the maximum count [n]. *)
Definition bench (P : Platform) (vRef : float) (n raw : Z) : Machine :=
  after (begin P 14 vRef n (machine0 P raw)) (machine0 P raw).

(** ** The public interface as data *)

(** The calls of the public interface with their arguments, and the values
    they return. *)
Inductive Call : Type :=
  | Call_begin (analogPin : Z) (vRef : float) (adcResolution : Z)
  | Call_setVref (vRef : float)
  | Call_setADCResolution (adcResolution : Z)
  | Call_setOffsetVoltage (offset : float)
  | Call_setSensitivity (voltsPerDegC : float)
  | Call_setSampling (samples : Z)
  | Call_getSampling
  | Call_readRaw
  | Call_rawToVoltage (raw : Z)
  | Call_readVoltage
  | Call_voltageToCelsius (voltage : float)
  | Call_readCelsius
  | Call_readFahrenheit
  | Call_readKelvin
  | Call_calibrate (actualTempC : float)
  | Call_readFilteredTemperatureC (alpha : float)
  | Call_FaultDetect.

Inductive Value : Type :=
  | Void
  | Int (n : Z)
  | Float (x : float).

Definition void (c : Op unit) : Op Value := c ;; ret Void.
Definition int (c : Op Z) : Op Value := n <- c ;; ret (Int n).
Definition flt (c : Op float) : Op Value := x <- c ;; ret (Float x).

Definition call (P : Platform) (c : Call) : Op Value :=
  match c with
  | Call_begin analogPin vRef adcResolution =>
      void (begin P analogPin vRef adcResolution)
  | Call_setVref vRef => void (setVref vRef)
  | Call_setADCResolution adcResolution => void (setADCResolution adcResolution)
  | Call_setOffsetVoltage offset => void (setOffsetVoltage offset)
  | Call_setSensitivity voltsPerDegC => void (setSensitivity voltsPerDegC)
  | Call_setSampling samples => void (setSampling samples)
  | Call_getSampling => int getSampling
  | Call_readRaw => int (readRaw P)
  | Call_rawToVoltage raw => flt (rawToVoltage raw)
  | Call_readVoltage => flt (readVoltage P)
  | Call_voltageToCelsius voltage => flt (voltageToCelsius voltage)
  | Call_readCelsius => flt (readCelsius P)
  | Call_readFahrenheit => flt (readFahrenheit P)
  | Call_readKelvin => flt (readKelvin P)
  | Call_calibrate actualTempC => void (calibrate P actualTempC)
  | Call_readFilteredTemperatureC alpha => flt (readFilteredTemperatureC P alpha)
  | Call_FaultDetect => int (FaultDetect P)
  end.

(** The integer arguments are in the range of their C type. *)
Definition well_typed (P : Platform) (c : Call) : Prop :=
  match c with
  | Call_begin analogPin _ adcResolution =>
      0 <= analogPin <= 255 /\ 0 <= adcResolution <= UINT16_MAX
  | Call_setADCResolution adcResolution => 0 <= adcResolution <= UINT16_MAX
  | Call_setSampling samples => 0 <= samples <= 255
  | Call_rawToVoltage raw => - INT_MAX P - 1 <= raw <= INT_MAX P
  | _ => True
  end.

(** What a call makes of [resolution] and of [sensitivity]. *)
Definition resolution_after (c : Call) (s : Sensor) : Z :=
  match c with
  | Call_begin _ _ adcResolution => adcResolution
  | Call_setADCResolution adcResolution => adcResolution
  | _ => resolution s
  end.

Definition sensitivity_after (c : Call) (s : Sensor) : float :=
  match c with
  | Call_setSensitivity voltsPerDegC => voltsPerDegC
  | _ => sensitivity s
  end.

(** ** Vocabulary of the statements *)

(** The state invariants of the data model. *)
Definition sample_ok (s : Sensor) : Prop := 1 <= avg_sample s <= 200.

Definition invariant (s : Sensor) : Prop :=
  resolution s > 0 /\ is_zero (sensitivity s) = false /\ sample_ok s.

(** The machine after [k] more conversions, and after one acquisition:
    the object is as it was, the board is [avg_sample] conversions on. *)
Definition tick (k : nat) (m : Machine) : Machine :=
  {| sensor := sensor m;
     board := {| adc := adc (board m);
                 conversions := (k + conversions (board m))%nat;
                 pin_modes := pin_modes (board m) |} |}.

Definition acquired (m : Machine) : Machine :=
  tick (Z.to_nat (avg_sample (sensor m))) m.

(** The accumulator of [readRaw] after the [k] conversions that start at
    conversion [t] of the input [f], and the plain sum of these samples. *)
Fixpoint accumulate (P : Platform) (f : nat -> Z) (t k : nat) (value : Z) : Z :=
  match k with
  | O => value
  | S k' => accumulate P f (S t) k' (to_uint 32 (value + to_int P (f t)))
  end.

Fixpoint sum_samples (f : nat -> Z) (t k : nat) : Z :=
  match k with
  | O => 0
  | S k' => f t + sum_samples f (S t) k'
  end.

(** The value [readRaw] returns on machine [m]. *)
Definition mean_count (P : Platform) (m : Machine) : Z :=
  to_int P
    (accumulate P (adc (board m) (analog_pin (sensor m)))
       (conversions (board m)) (Z.to_nat (avg_sample (sensor m))) 0
     / avg_sample (sensor m)).

(** The values of the conversions on the fields [s]. *)
Definition volts (s : Sensor) (raw : Z) : float :=
  ((float_of_int raw * reference_voltage s) / float_of_int (resolution s))%flt.

Definition celsius (s : Sensor) (voltage : float) : float :=
  ((((voltage - offset_voltage s) / sensitivity s) * gain s) + offset s)%flt.

Definition fahrenheit (P : Platform) (c : float) : float :=
  to_float (dadd P (ddiv P (dmul P (to_double P c) (dbl P 9)) (dbl P 5)) (dbl P 32)).

Definition kelvin (P : Platform) (c : float) : float :=
  to_float (dadd P (to_double P c) (dec P 27315 100)).

(** The reading of one acquisition on machine [m]. *)
Definition reading (P : Platform) (m : Machine) : float :=
  celsius (sensor m) (volts (sensor m) (mean_count P m)).

(** The update of the filter: [alpha * current + (1.0 - alpha) * previous],
    the product [alpha * current] in [float], the rest in [double]. *)
Definition blend (P : Platform) (alpha current previous : float) : float :=
  to_float
    (dadd P (to_double P (alpha * current)%flt)
       (dmul P (dsub P (dbl P 1) (to_double P alpha)) (to_double P previous))).

(** The sanity window of [FaultDetect] for the reference voltage [vref]:
    whether the voltage [v] lies strictly between 0.1 and [vref - 0.1]. *)
Definition in_window (P : Platform) (vref v : float) : bool :=
  fp_lt (dec P 1 10) (to_double P v)
  && fp_lt (to_double P v) (dsub P (to_double P vref) (dec P 1 10)).

(** The count [setSampling] stores for the argument [n]. *)
Definition clamped (n : Z) : Z :=
  let n := if n =? 0 then 1 else n in
  if n >? 200 then 200 else n.

Definition positive_float (x : float) : bool :=
  match x with S754_finite false _ _ => true | _ => false end.

(** A bounded search: [check] holds at the [k] integers from [lo] on. *)
Fixpoint all_from (check : Z -> bool) (k : nat) (lo : Z) : bool :=
  match k with
  | O => true
  | S k' => check lo && all_from check k' (lo + 1)
  end.

(** The [float] values of the literals 1.25 and 0.005, and the reference
    voltage 3.30126953125 V. *)
Definition c_1_25 : float := S754_finite false 10485760 (-23).
Definition c_0_005 : float := S754_finite false 10737418 (-31).
Definition vref_3_3013 : float := S754_finite false 13846528 (-22).

(** ** Sequences of calls, and what a call touches *)

(** The calls [cs] made one after the other; the values they return. *)
Fixpoint run_calls (P : Platform) (cs : list Call) : Op (list Value) :=
  match cs with
  | [] => ret []
  | c :: cs' =>
      v <- call P c ;;
      vs <- run_calls P cs' ;;
      ret (v :: vs)
  end.

(** The calls whose method makes an acquisition with [readRaw]. *)
Definition acquires (c : Call) : bool :=
  match c with
  | Call_readRaw | Call_readVoltage | Call_readCelsius | Call_readFahrenheit
  | Call_readKelvin | Call_calibrate _ | Call_readFilteredTemperatureC _
  | Call_FaultDetect => true
  | _ => false
  end.

(** The fields a call may assign: the object [s'] it leaves differs from
    the object [s] it finds in at most these. *)
Definition changes_only (c : Call) (s s' : Sensor) : Prop :=
  match c with
  | Call_begin _ _ _ =>
      offset_voltage s' = offset_voltage s /\ sensitivity s' = sensitivity s
  | Call_setVref _ => s' = set_reference_voltage (reference_voltage s') s
  | Call_setADCResolution _ => s' = set_resolution (resolution s') s
  | Call_setOffsetVoltage _ => s' = set_offset_voltage (offset_voltage s') s
  | Call_setSensitivity _ => s' = set_sensitivity (sensitivity s') s
  | Call_setSampling _ => s' = set_avg_sample (avg_sample s') s
  | Call_calibrate _ => s' = set_offset (offset s') s
  | Call_readFilteredTemperatureC _ =>
      s' = set_filtered_temperature (filtered_temperature s') s
  | _ => s' = s
  end.

(** The log of [pinMode] after a call: only [begin] adds to it. *)
Definition pin_modes_after (c : Call) (b : Board) : list (Z * PinMode) :=
  match c with
  | Call_begin analogPin _ _ => (analogPin, INPUT) :: pin_modes b
  | _ => pin_modes b
  end.

(** * Lemmas *)

(** ** Integer conversions *)

Lemma to_uint_small (w x : Z) : 0 <= x < 2 ^ w -> to_uint w x = x.
Proof. intros H. unfold to_uint. now apply Z.mod_small. Qed.

Lemma to_int_small (P : Platform) (x : Z) :
  0 <= x <= INT_MAX P -> to_int P x = x.
Proof.
  unfold to_int, to_sint, INT_MAX.
  destruct P; cbn [int_bits]; intros H;
    rewrite Z.mod_small; lia.
Qed.

Lemma clamped_spec (n : Z) : 0 <= n -> clamped n = Z.max 1 (Z.min n 200).
Proof.
  intros Hn. unfold clamped.
  destruct (Z.eqb_spec n 0) as [->|Hz]; [reflexivity|].
  destruct (Z.gtb_spec n 200); lia.
Qed.

(** ** Floating point *)

Lemma fp_lt_irrefl (x : spec_float) : fp_lt x x = false.
Proof.
  unfold fp_lt, SFltb.
  destruct x as [s|s| |s m e]; cbn; try reflexivity.
  - now destruct s.
  - destruct s; rewrite Z.compare_refl, Pos.compare_cont_refl; reflexivity.
Qed.

Lemma all_from_spec (check : Z -> bool) (k : nat) :
  forall lo, all_from check k lo = true ->
  forall n, lo <= n < lo + Z.of_nat k -> check n = true.
Proof.
  induction k as [|k IH]; intros lo H n Hn.
  - lia.
  - cbn [all_from] in H. apply andb_true_iff in H as [H0 H1].
    destruct (Z.eq_dec n lo) as [->|Hne]; [exact H0|].
    apply (IH (lo + 1) H1). lia.
Qed.

(** Every count from 1 to 65535 is a positive finite [float]. *)
Lemma float_of_count_positive (n : Z) :
  1 <= n <= UINT16_MAX -> positive_float (float_of_int n) = true.
Proof.
  intros Hn.
  apply (all_from_spec (fun k => positive_float (float_of_int k))
           (Z.to_nat UINT16_MAX) 1).
  - vm_compute. reflexivity.
  - rewrite Z2Nat.id; unfold UINT16_MAX in *; lia.
Qed.

(** ** Running the monad *)

Lemma bind_Some {A B : Type} (c : Op A) (k : A -> Op B) (m m' : Machine) (a : A) :
  c m = Some (a, m') -> bind c k m = k a m'.
Proof. intros H. unfold bind. now rewrite H. Qed.

Lemma tick_0 (m : Machine) : tick 0 m = m.
Proof. destruct m as [s [f t l]]. reflexivity. Qed.

(** ** Raw acquisition *)

Lemma readRaw_loop_run (P : Platform) (k : nat) :
  forall (value : Z) (m : Machine),
    readRaw_loop P k value m =
    Some (accumulate P (adc (board m) (analog_pin (sensor m)))
            (conversions (board m)) k value,
          tick k m).
Proof.
  induction k as [|k IH]; intros value m.
  - cbn. now rewrite tick_0.
  - cbn [readRaw_loop accumulate].
    unfold bind at 1, this. unfold bind at 1, analogRead. cbn beta iota.
    rewrite IH. cbn [sensor board adc conversions].
    f_equal. f_equal.
    unfold tick; cbn. now rewrite Nat.add_succ_r.
Qed.

Lemma readRaw_run (P : Platform) (m : Machine) :
  avg_sample (sensor m) <> 0 ->
  readRaw P m = Some (mean_count P m, acquired m).
Proof.
  intros Hn. unfold readRaw.
  unfold bind at 1, this. unfold bind at 1.
  rewrite readRaw_loop_run.
  unfold bind, this. cbn [tick sensor].
  destruct (Z.eqb_spec (avg_sample (sensor m)) 0) as [E|_]; [contradiction|].
  reflexivity.
Qed.

Lemma sum_samples_bounds (f : nat -> Z) (M : Z) (k : nat) :
  (forall t, 0 <= f t <= M) ->
  forall t, 0 <= sum_samples f t k <= Z.of_nat k * M.
Proof.
  intros Hf. induction k as [|k IH]; intros t.
  - cbn. lia.
  - cbn [sum_samples]. specialize (IH (S t)). specialize (Hf t). lia.
Qed.

Lemma accumulate_no_wrap (P : Platform) (f : nat -> Z) (M : Z) (k : nat) :
  (forall t, 0 <= f t <= M) -> M <= INT_MAX P ->
  forall (t : nat) (value : Z),
    0 <= value -> value + Z.of_nat k * M < 2 ^ 32 ->
    accumulate P f t k value = value + sum_samples f t k.
Proof.
  intros Hf HM. induction k as [|k IH]; intros t value Hv Hb.
  - cbn. lia.
  - cbn [accumulate sum_samples].
    pose proof (Hf t) as Ht.
    rewrite Nat2Z.inj_succ, Z.mul_succ_l in Hb.
    assert (0 <= Z.of_nat k * M) by (apply Z.mul_nonneg_nonneg; lia).
    rewrite to_int_small by lia.
    rewrite to_uint_small by lia.
    rewrite IH by lia. lia.
Qed.

(** On a steady input the accumulator, hence the mean, does not depend on
    the time of the acquisition. *)
Lemma accumulate_steady (P : Platform) (f g : nat -> Z) (x : Z) (k : nat) :
  (forall t, f t = x) -> (forall t, g t = x) ->
  forall (t u : nat) (value : Z),
    accumulate P f t k value = accumulate P g u k value.
Proof.
  intros Hf Hg. induction k as [|k IH]; intros t u value.
  - reflexivity.
  - cbn [accumulate]. rewrite Hf, Hg. apply IH.
Qed.

Lemma mean_count_steady (P : Platform) (m1 m2 : Machine) (x : Z) :
  sensor m2 = sensor m1 ->
  (forall t, adc (board m1) (analog_pin (sensor m1)) t = x) ->
  (forall t, adc (board m2) (analog_pin (sensor m1)) t = x) ->
  mean_count P m2 = mean_count P m1.
Proof.
  intros Hs H1 H2. unfold mean_count. rewrite Hs.
  f_equal. f_equal. now apply accumulate_steady with (x := x).
Qed.

(** ** What each method returns and leaves *)

Lemma begin_run (P : Platform) (pin : Z) (vRef : float) (n : Z) (m : Machine) :
  begin P pin vRef n m =
  Some (tt,
        {| sensor :=
             {| analog_pin := pin; reference_voltage := vRef; resolution := n;
                offset_voltage := offset_voltage (sensor m);
                sensitivity := sensitivity (sensor m);
                offset := float_of_int 0; gain := float_of_int 1;
                filtered_temperature := NAN; avg_sample := 10 |};
           board :=
             {| adc := adc (board m); conversions := conversions (board m);
                pin_modes := (pin, INPUT) :: pin_modes (board m) |} |}).
Proof. destruct P; reflexivity. Qed.

Lemma constructor_defaults (P : Platform) (mem : Sensor) :
  offset_voltage (AD849x_7Semi P mem) = c_1_25 /\
  sensitivity (AD849x_7Semi P mem) = c_0_005 /\
  avg_sample (AD849x_7Semi P mem) = 10.
Proof. destruct P; repeat split. Qed.

Lemma setSampling_run (n : Z) (m : Machine) :
  setSampling n m =
  Some (tt, {| sensor := set_avg_sample (clamped n) (sensor m); board := board m |}).
Proof. reflexivity. Qed.

Lemma rawToVoltage_run (raw : Z) (m : Machine) :
  rawToVoltage raw m = Some (volts (sensor m) raw, m).
Proof. reflexivity. Qed.

Lemma voltageToCelsius_run (v : float) (m : Machine) :
  voltageToCelsius v m = Some (celsius (sensor m) v, m).
Proof. reflexivity. Qed.

Lemma readVoltage_run (P : Platform) (m : Machine) :
  avg_sample (sensor m) <> 0 ->
  readVoltage P m = Some (volts (sensor m) (mean_count P m), acquired m).
Proof.
  intros Hn. unfold readVoltage.
  rewrite (bind_Some _ _ _ _ _ (readRaw_run P m Hn)).
  now rewrite rawToVoltage_run.
Qed.

Lemma readCelsius_run (P : Platform) (m : Machine) :
  avg_sample (sensor m) <> 0 ->
  readCelsius P m = Some (reading P m, acquired m).
Proof.
  intros Hn. unfold readCelsius.
  rewrite (bind_Some _ _ _ _ _ (readVoltage_run P m Hn)).
  now rewrite voltageToCelsius_run.
Qed.

Lemma readFahrenheit_run (P : Platform) (m : Machine) :
  avg_sample (sensor m) <> 0 ->
  readFahrenheit P m = Some (fahrenheit P (reading P m), acquired m).
Proof.
  intros Hn. unfold readFahrenheit.
  rewrite (bind_Some _ _ _ _ _ (readCelsius_run P m Hn)).
  unfold fahrenheit, ret. reflexivity.
Qed.

Lemma readKelvin_run (P : Platform) (m : Machine) :
  avg_sample (sensor m) <> 0 ->
  readKelvin P m = Some (kelvin P (reading P m), acquired m).
Proof.
  intros Hn. unfold readKelvin.
  rewrite (bind_Some _ _ _ _ _ (readCelsius_run P m Hn)).
  unfold kelvin, ret. reflexivity.
Qed.

Lemma calibrate_run (P : Platform) (actualTempC : float) (m : Machine) :
  avg_sample (sensor m) <> 0 ->
  calibrate P actualTempC m =
  Some (tt,
        {| sensor := set_offset (actualTempC - reading P m)%flt (sensor m);
           board := board (acquired m) |}).
Proof.
  intros Hn. unfold calibrate.
  rewrite (bind_Some _ _ _ _ _ (readCelsius_run P m Hn)).
  reflexivity.
Qed.

Lemma readFilteredTemperatureC_run (P : Platform) (alpha : float) (m : Machine) :
  avg_sample (sensor m) <> 0 ->
  let previous :=
    if isnan (filtered_temperature (sensor m)) then reading P m
    else filtered_temperature (sensor m) in
  readFilteredTemperatureC P alpha m =
  Some (blend P alpha (reading P m) previous,
        {| sensor :=
             set_filtered_temperature
               (blend P alpha (reading P m) previous) (sensor m);
           board := board (acquired m) |}).
Proof.
  intros Hn. cbv zeta. unfold readFilteredTemperatureC.
  rewrite (bind_Some _ _ _ _ _ (readCelsius_run P m Hn)).
  unfold bind, this, assign, ret. cbn [sensor acquired tick].
  destruct (isnan (filtered_temperature (sensor m))); reflexivity.
Qed.

Lemma FaultDetect_run (P : Platform) (m : Machine) :
  avg_sample (sensor m) <> 0 ->
  FaultDetect P m =
  Some (b2z (in_window P (reference_voltage (sensor m))
               (volts (sensor m) (mean_count P m))),
        acquired m).
Proof.
  intros Hn. unfold FaultDetect.
  rewrite (bind_Some _ _ _ _ _ (readVoltage_run P m Hn)).
  reflexivity.
Qed.

(** ** Calls of the interface *)

(** A call that runs to [m'], keeps the sampling invariant and treats
    [resolution] and [sensitivity] as [resolution_after] and
    [sensitivity_after] say, keeps the other two invariants exactly when
    these values are not zero. *)
Lemma call_settles (P : Platform) (c : Call) (m : Machine) (v : Value) (m' : Machine) :
  call P c m = Some (v, m') ->
  resolution (sensor m') = resolution_after c (sensor m) ->
  sensitivity (sensor m') = sensitivity_after c (sensor m) ->
  sample_ok (sensor m') ->
  exists (v : Value) (m' : Machine),
    call P c m = Some (v, m') /\
    sample_ok (sensor m') /\
    resolution (sensor m') = resolution_after c (sensor m) /\
    sensitivity (sensor m') = sensitivity_after c (sensor m) /\
    (invariant (sensor m') <->
     resolution_after c (sensor m) > 0 /\
     is_zero (sensitivity_after c (sensor m)) = false).
Proof.
  intros Hrun Hr Hz Hs. exists v, m'.
  split; [exact Hrun|]. split; [exact Hs|].
  split; [exact Hr|]. split; [exact Hz|].
  unfold invariant. rewrite Hr, Hz. tauto.
Qed.

(** A call whose method needs no acquisition and assigns none of the three
    fields of the invariants. *)
Ltac keeps_fields :=
  eapply call_settles; [reflexivity | reflexivity | reflexivity | assumption].

(** A call whose method runs as the equation [L] says; the sampling
    invariant of the machine it leaves remains to be shown. *)
Ltac runs_as L :=
  eapply call_settles;
  [ unfold call, void, int, flt; rewrite (bind_Some _ _ _ _ _ L); reflexivity
  | reflexivity | reflexivity | ].

(** * Properties of the driver *)

(** ** Calibration *)

(** C1 at a failing input. The measurement that [calibrate] takes already
    contains the calibration offset in force, and the new offset replaces
    the old one instead of adding to it.  On a steady count of 1705 of
    4095 at 3.3 V the reading is 24.798 degrees; [calibrate 100] makes it
    100; a second [calibrate 100] on the same input measures 100, sets the
    offset back to 0, and the reading is 24.798 degrees again. *)
Theorem calibrate_twice_undoes_calibration (P : Platform) :
  let hundred := float_of_int 100 in
  let m0 := bench P (flit 33 10) 4095 1705 in
  let m1 := after (calibrate P hundred m0) m0 in
  let m2 := after (calibrate P hundred m1) m1 in
  result (readCelsius P m0) = Some (S754_finite false 13001575 (-19)) /\
  offset (sensor m1) = S754_finite false 9856806 (-17) /\
  result (readCelsius P m1) = Some hundred /\
  offset (sensor m2) = S754_zero false /\
  result (readCelsius P m2) = Some (S754_finite false 13001575 (-19)) /\
  result (readCelsius P m2) <> Some hundred.
Proof. destruct P; vm_compute; repeat split; discriminate. Qed.

(** ** State invariants *)

(** C2, as stated, fails: the setters and [begin] store a zero as they
    store any other value.  From a state that satisfies the invariants,
    [setSensitivity 0.0] and [setADCResolution 0] lead to states that do
    not, and [begin] with a maximum count of 0 never establishes them. *)
Lemma setters_break_invariants :
  let m := bench AVR (flit 33 10) 4095 1705 in
  invariant (sensor m) /\
  well_typed AVR (Call_setSensitivity (float_of_int 0)) /\
  ~ invariant (sensor (after (call AVR (Call_setSensitivity (float_of_int 0)) m) m)) /\
  well_typed AVR (Call_setADCResolution 0) /\
  ~ invariant (sensor (after (call AVR (Call_setADCResolution 0) m) m)) /\
  well_typed AVR (Call_begin 14 (flit 33 10) 0) /\
  ~ invariant (sensor (after (call AVR (Call_begin 14 (flit 33 10) 0) m) m)).
Proof.
  unfold invariant, sample_ok, well_typed, UINT16_MAX.
  repeat split; try (vm_compute; congruence);
    intros (H1 & H2 & H3); vm_compute in H1, H2; discriminate.
Qed.

(** C2, amended. [1 <= avg_sample <= 200] holds from the construction of
    the object on and every call of the public interface, which always
    completes, preserves it.  [resolution] is assigned by [begin] and
    [setADCResolution] only and [sensitivity] by [setSensitivity] only,
    each to the argument as it is given; every other call leaves the two
    as they are.  So [resolution > 0] and [sensitivity <> 0] are kept
    exactly by the calls that pass no zero. *)
Theorem sampling_invariant_preserved (P : Platform) (c : Call) (m : Machine) :
  well_typed P c ->
  sample_ok (sensor m) ->
  (forall mem : Sensor, sample_ok (AD849x_7Semi P mem)) /\
  exists (v : Value) (m' : Machine),
    call P c m = Some (v, m') /\
    sample_ok (sensor m') /\
    resolution (sensor m') = resolution_after c (sensor m) /\
    sensitivity (sensor m') = sensitivity_after c (sensor m) /\
    (invariant (sensor m') <->
     resolution_after c (sensor m) > 0 /\
     is_zero (sensitivity_after c (sensor m)) = false).
Proof.
  intros Hty Hok. split.
  { intros mem. unfold sample_ok.
    destruct (constructor_defaults P mem) as (_ & _ & ->). lia. }
  assert (Hn : avg_sample (sensor m) <> 0) by (unfold sample_ok in Hok; lia).
  destruct c; cbn [well_typed] in Hty;
    try (keeps_fields; fail).
  - (* begin *)
    runs_as (begin_run P analogPin vRef adcResolution m).
    unfold sample_ok; cbn; lia.
  - (* setSampling *)
    runs_as (setSampling_run samples m).
    unfold sample_ok; cbn [sensor avg_sample set_avg_sample].
    rewrite clamped_spec by lia. lia.
  - runs_as (readRaw_run P m Hn). exact Hok.
  - runs_as (readVoltage_run P m Hn). exact Hok.
  - runs_as (readCelsius_run P m Hn). exact Hok.
  - runs_as (readFahrenheit_run P m Hn). exact Hok.
  - runs_as (readKelvin_run P m Hn). exact Hok.
  - runs_as (calibrate_run P actualTempC m Hn). exact Hok.
  - runs_as (readFilteredTemperatureC_run P alpha m Hn). exact Hok.
  - runs_as (FaultDetect_run P m Hn). exact Hok.
Qed.

Lemma sampling_invariant_preserved_witness :
  exists (v : Value) (m' : Machine),
    call AVR (Call_setSampling 0) (bench AVR (flit 33 10) 4095 1705) = Some (v, m') /\
    sample_ok (sensor m').
Proof.
  destruct (sampling_invariant_preserved AVR (Call_setSampling 0)
              (bench AVR (flit 33 10) 4095 1705))
    as (_ & v & m' & Hrun & Hok & _).
  - cbn. lia.
  - unfold sample_ok. vm_compute. split; discriminate.
  - exists v, m'. split; [exact Hrun | exact Hok].
Defined.

(** ** Temperature conversion *)

(** C3. For every voltage [v], [voltageToCelsius v] is
    [((v - offset_voltage) / sensitivity) * gain + offset], each operation
    being the one of [float], and the machine is left as it was; after
    [begin], [gain] is 1 and [offset] is 0. *)
Theorem voltageToCelsius_formula (P : Platform) (v : float) (m : Machine) :
  voltageToCelsius v m =
  Some (((((v - offset_voltage (sensor m)) / sensitivity (sensor m))
          * gain (sensor m)) + offset (sensor m))%flt, m) /\
  forall (pin : Z) (vRef : float) (n : Z),
  exists m',
    begin P pin vRef n m = Some (tt, m') /\
    gain (sensor m') = float_of_int 1 /\
    offset (sensor m') = float_of_int 0 /\
    voltageToCelsius v m' =
    Some (((((v - offset_voltage (sensor m)) / sensitivity (sensor m))
            * float_of_int 1) + float_of_int 0)%flt, m').
Proof.
  split; [reflexivity|].
  intros pin vRef n. eexists. split; [apply begin_run|].
  repeat split.
Qed.

(** ** Filtering *)

(** C4, as stated, fails on the first call: the value returned is not
    always the reading itself.  On an AVR board at a steady count of 1705
    of 4095 at 3.3 V, the first filtered reading with [alpha = 0.1] is one
    unit in the last place below the reading; on a 32-bit board the same
    happens with [alpha = 3]. *)
Lemma first_filtered_reading_differs :
  (let m := bench AVR (flit 33 10) 4095 1705 in
   isnan (filtered_temperature (sensor m)) = true /\
   result (readCelsius AVR m) = Some (S754_finite false 13001575 (-19)) /\
   result (readFilteredTemperatureC AVR (flit 1 10) m)
   = Some (S754_finite false 13001574 (-19))) /\
  (let m := bench ILP32 (flit 33 10) 4095 1705 in
   isnan (filtered_temperature (sensor m)) = true /\
   result (readCelsius ILP32 m) = Some (S754_finite false 13001575 (-19)) /\
   result (readFilteredTemperatureC ILP32 (float_of_int 3) m)
   = Some (S754_finite false 13001574 (-19))).
Proof. vm_compute. repeat split. Qed.

(** C4, amended. [readFilteredTemperatureC alpha] makes one acquisition of
    the reading [c]; with [previous] the stored [filtered_temperature], or
    [c] itself when that is NaN (the filter is unset), it stores and
    returns [alpha * c + (1.0 - alpha) * previous].  The first call so
    returns [alpha * c + (1.0 - alpha) * c], which rounding may take off
    [c]. *)
Theorem readFilteredTemperatureC_update (P : Platform) (alpha : float) (m : Machine) :
  avg_sample (sensor m) <> 0 ->
  exists (c : float) (m1 : Machine),
    readCelsius P m = Some (c, m1) /\
    sensor m1 = sensor m /\
    let previous :=
      if isnan (filtered_temperature (sensor m)) then c
      else filtered_temperature (sensor m) in
    let y :=
      to_float
        (dadd P (to_double P (alpha * c)%flt)
           (dmul P (dsub P (dbl P 1) (to_double P alpha))
              (to_double P previous))) in
    readFilteredTemperatureC P alpha m =
    Some (y, {| sensor := set_filtered_temperature y (sensor m1);
                board := board m1 |}) /\
    (forall m2 : Machine,
       readFilteredTemperatureC P alpha m = Some (y, m2) ->
       filtered_temperature (sensor m2) = y).
Proof.
  intros Hn. exists (reading P m), (acquired m).
  split; [now apply readCelsius_run|]. split; [reflexivity|].
  cbv zeta.
  pose proof (readFilteredTemperatureC_run P alpha m Hn) as Hrun.
  cbv zeta in Hrun. unfold blend in Hrun.
  split; [exact Hrun|].
  intros m2 H. rewrite Hrun in H.
  apply (f_equal (fun r => after r m)) in H. cbn [after] in H.
  rewrite <- H. reflexivity.
Qed.

Lemma readFilteredTemperatureC_update_witness :
  exists (c : float) (m1 : Machine),
    readCelsius AVR (bench AVR (flit 33 10) 4095 1705) = Some (c, m1) /\
    readFilteredTemperatureC AVR (flit 1 10) (bench AVR (flit 33 10) 4095 1705) =
    Some (blend AVR (flit 1 10) c c,
          {| sensor := set_filtered_temperature (blend AVR (flit 1 10) c c) (sensor m1);
             board := board m1 |}).
Proof.
  destruct (readFilteredTemperatureC_update AVR (flit 1 10)
              (bench AVR (flit 33 10) 4095 1705))
    as (c & m1 & Hc & _ & Hf & _).
  - vm_compute; discriminate.
  - exists c, m1. split; [exact Hc | exact Hf].
Defined.

(** Two filtered readings in a row with [alpha = 1] on a steady input:
    both are the reading itself. *)
Example filtered_alpha_one (P : Platform) :
  let m := bench P (flit 33 10) 4095 1705 in
  let r1 := readFilteredTemperatureC P (float_of_int 1) m in
  result r1 = result (readCelsius P m) /\
  result (readFilteredTemperatureC P (float_of_int 1) (after r1 m))
  = result (readCelsius P m).
Proof. destruct P; vm_compute; repeat split. Qed.

(** ** Sampling count *)

(** C5. For every argument [n] of [setSampling] (a [uint8_t]) the count
    stored is [n] clamped to the range 1..200: 1 for [n = 0], 200 for
    [n > 200], and [n] itself otherwise; [getSampling] then returns the
    stored count.  The call always completes: there is no error result. *)
Theorem setSampling_clamps (n : Z) (m : Machine) :
  0 <= n <= 255 ->
  exists m',
    setSampling n m = Some (tt, m') /\
    avg_sample (sensor m') = Z.max 1 (Z.min n 200) /\
    getSampling m' = Some (Z.max 1 (Z.min n 200), m') /\
    (n = 0 -> avg_sample (sensor m') = 1) /\
    (n > 200 -> avg_sample (sensor m') = 200) /\
    (1 <= n <= 200 -> avg_sample (sensor m') = n).
Proof.
  intros Hn. eexists. split; [apply setSampling_run|].
  unfold getSampling, bind, this, ret. cbn [sensor avg_sample set_avg_sample].
  rewrite clamped_spec by lia. repeat split; lia.
Qed.

Lemma setSampling_clamps_witness :
  exists m',
    setSampling 250 (machine0 AVR 512) = Some (tt, m') /\
    avg_sample (sensor m') = 200.
Proof.
  destruct (setSampling_clamps 250 (machine0 AVR 512)) as (m' & H1 & H2 & _);
    [lia|].
  exists m'. split; [exact H1|]. rewrite H2. reflexivity.
Defined.

(** ** Raw acquisition *)

(** C6. [readRaw] makes exactly [avg_sample] conversions, one after the
    other, on the configured pin.  When every sample lies in [0, M], for a
    largest count [M] that a 16-bit [resolution] and an [int] can hold,
    the [uint32_t] accumulator does not wrap (200 samples of [M] stay
    below 2^32), the result is the quotient of the sum of the samples by
    [avg_sample] with the remainder dropped, and it lies in [0, M]. *)
Theorem readRaw_truncated_mean (P : Platform) (m : Machine) (M : Z) :
  sample_ok (sensor m) ->
  0 <= M <= UINT16_MAX -> M <= INT_MAX P ->
  (forall t, 0 <= adc (board m) (analog_pin (sensor m)) t <= M) ->
  let n := avg_sample (sensor m) in
  let total :=
    sum_samples (adc (board m) (analog_pin (sensor m)))
      (conversions (board m)) (Z.to_nat n) in
  200 * M < 2 ^ 32 /\
  0 <= total <= n * M /\
  accumulate P (adc (board m) (analog_pin (sensor m)))
    (conversions (board m)) (Z.to_nat n) 0 = total /\
  readRaw P m = Some (total / n, tick (Z.to_nat n) m) /\
  n * (total / n) <= total < n * (total / n) + n /\
  0 <= total / n <= M.
Proof.
  intros [Hlo Hhi] HM HI Hf n total.
  assert (Hb : 0 <= total <= n * M).
  { unfold total.
    pose proof (sum_samples_bounds _ M (Z.to_nat n) Hf (conversions (board m))) as B.
    rewrite Z2Nat.id in B by (unfold n; lia). exact B. }
  assert (H200 : 200 * M < 2 ^ 32) by (unfold UINT16_MAX in HM; lia).
  assert (HnM : n * M <= 200 * M) by (apply Z.mul_le_mono_nonneg_r; unfold n; lia).
  assert (Hacc : accumulate P (adc (board m) (analog_pin (sensor m)))
                   (conversions (board m)) (Z.to_nat n) 0 = total).
  { rewrite (accumulate_no_wrap P _ M (Z.to_nat n) Hf HI); [reflexivity|lia|].
    rewrite Z2Nat.id by (unfold n; lia). lia. }
  assert (Hq : 0 <= total / n <= M).
  { split.
    - apply Z.div_pos; unfold n; lia.
    - apply Z.div_le_upper_bound; unfold n; lia. }
  repeat split; try lia; try exact Hacc.
  - rewrite readRaw_run by lia. unfold mean_count, acquired. fold n. rewrite Hacc.
    rewrite to_int_small by lia. reflexivity.
  - pose proof (Z.mul_div_le total n). lia.
  - pose proof (Z.mul_succ_div_gt total n). lia.
Qed.

Lemma readRaw_truncated_mean_witness :
  readRaw AVR (machine0 AVR 1023) =
  Some (sum_samples (fun _ => 1023) 0 10 / 10, tick 10 (machine0 AVR 1023)).
Proof.
  refine (proj1 (proj2 (proj2 (proj2
    (readRaw_truncated_mean AVR (machine0 AVR 1023) 1023 _ _ _ _))))).
  - unfold sample_ok; cbn; lia.
  - unfold UINT16_MAX; lia.
  - unfold INT_MAX; cbn; lia.
  - intros t; cbn; lia.
Defined.

(** The mean is truncated, not rounded: on an input that alternates
    between 1 and 2, four samples sum to 6 and [readRaw] returns 1. *)
Example readRaw_truncates (P : Platform) :
  let b := {| adc := fun _ t => 1 + Z.of_nat t mod 2;
              conversions := O; pin_modes := [] |} in
  let m := after (setSampling 4 {| sensor := AD849x_7Semi P blank; board := b |})
             {| sensor := AD849x_7Semi P blank; board := b |} in
  sum_samples (adc b 0) 0 4 = 6 /\
  result (readRaw P m) = Some 1 /\
  conversions (board (after (readRaw P m) m)) = 4%nat.
Proof. destruct P; vm_compute; repeat split. Qed.

(** ** Diagnostics *)

(** C7. [FaultDetect] makes one acquisition of the voltage [v] and returns
    1 when [0.1 < v] and [v < reference_voltage - 0.1], and 0 otherwise;
    both comparisons are strict (a voltage equal to a bound gives 0) and
    are made in [double].  With a reference of 3.3 V the flag is 1 for
    half the reference and 0 for 0.05 V and for the reference less
    0.02 V. *)
Theorem FaultDetect_window (P : Platform) (m : Machine) :
  avg_sample (sensor m) <> 0 ->
  exists (v : float) (m' : Machine),
    readVoltage P m = Some (v, m') /\
    FaultDetect P m =
    Some (b2z (fp_lt (dec P 1 10) (to_double P v)
               && fp_lt (to_double P v)
                    (dsub P (to_double P (reference_voltage (sensor m)))
                       (dec P 1 10))),
          m') /\
    (forall vref u : float,
       to_double P u = dec P 1 10 \/
       to_double P u = dsub P (to_double P vref) (dec P 1 10) ->
       in_window P vref u = false) /\
    (let vref := flit 33 10 in
     in_window P vref (vref / float_of_int 2)%flt = true /\
     in_window P vref (flit 5 100) = false /\
     in_window P vref (vref - flit 2 100)%flt = false /\
     in_window P vref (to_float (dsub P (to_double P vref) (dec P 2 100))) = false).
Proof.
  intros Hn. exists (volts (sensor m) (mean_count P m)), (acquired m).
  split; [now apply readVoltage_run|]. split; [|split].
  - rewrite FaultDetect_run by exact Hn. reflexivity.
  - intros vref u [E|E]; unfold in_window; rewrite E, fp_lt_irrefl.
    + reflexivity.
    + apply andb_false_r.
  - destruct P; vm_compute; repeat split.
Qed.

Lemma FaultDetect_window_witness :
  exists (v : float) (m' : Machine),
    readVoltage ILP32 (bench ILP32 (flit 33 10) 4096 2048) = Some (v, m') /\
    FaultDetect ILP32 (bench ILP32 (flit 33 10) 4096 2048) =
    Some (b2z (in_window ILP32 (flit 33 10) v), m').
Proof.
  destruct (FaultDetect_window ILP32 (bench ILP32 (flit 33 10) 4096 2048))
    as (v & m' & Hv & Hf & _).
  - vm_compute; discriminate.
  - exists v, m'. split; [exact Hv | exact Hf].
Defined.

(** Three acquisitions on a 12-bit ADC at 3.3 V: mid scale is inside the
    window, 0.05 V and 3.28 V are outside. *)
Example FaultDetect_examples (P : Platform) :
  let m raw := bench P (flit 33 10) 4095 raw in
  result (FaultDetect P (m 2047)) = Some 1 /\
  result (FaultDetect P (m 62)) = Some 0 /\
  result (FaultDetect P (m 4070)) = Some 0.
Proof. destruct P; vm_compute; repeat split. Qed.

(** ** Voltage conversion *)

(** C8, as stated, fails at full scale: with a reference of
    3.30126953125 V and a maximum count of 4095, [rawToVoltage 4095] is
    the next [float] above the reference voltage. *)
Lemma rawToVoltage_full_scale_differs :
  let m := bench AVR vref_3_3013 4095 0 in
  resolution (sensor m) = 4095 /\
  reference_voltage (sensor m) = vref_3_3013 /\
  result (rawToVoltage 4095 m) = Some (S754_finite false 13846529 (-22)) /\
  result (rawToVoltage (resolution (sensor m)) m)
  <> Some (reference_voltage (sensor m)).
Proof. vm_compute; repeat split; discriminate. Qed.

(** The conversion uses [float] operations only, so the 32-bit boards give
    the same value. *)
Example rawToVoltage_full_scale_ILP32 :
  result (rawToVoltage 4095 (bench ILP32 vref_3_3013 4095 0))
  = Some (S754_finite false 13846529 (-22)).
Proof. vm_compute; reflexivity. Qed.

(** C8, amended. For every [raw], [rawToVoltage raw] is the [float]
    quotient [(raw * reference_voltage) / resolution] and leaves the
    machine as it was; [rawToVoltage 0] is zero when the reference voltage
    is finite and the maximum count is in 1..65535; at full scale the
    result is the reference voltage for 3.3 V and 5 V at 1023 and at 4095
    counts. *)
Theorem rawToVoltage_formula (raw : Z) (m : Machine) :
  rawToVoltage raw m =
  Some (((float_of_int raw * reference_voltage (sensor m))
         / float_of_int (resolution (sensor m)))%flt, m) /\
  (1 <= resolution (sensor m) <= UINT16_MAX ->
   is_finite (reference_voltage (sensor m)) = true ->
   exists z, rawToVoltage 0 m = Some (z, m) /\ is_zero z = true) /\
  (forall (P : Platform) (vRef : float) (n : Z),
     vRef = flit 33 10 \/ vRef = float_of_int 5 ->
     n = 1023 \/ n = 4095 ->
     let m' := after (begin P 14 vRef n m) m in
     rawToVoltage n m' = Some (vRef, m')).
Proof.
  split; [reflexivity|]. split.
  - intros Hres Hfin. eexists. split; [reflexivity|].
    pose proof (float_of_count_positive _ Hres) as Hpos.
    destruct (float_of_int (resolution (sensor m))) as [| | |[] mr er];
      try discriminate.
    destruct (reference_voltage (sensor m)) as [sv|sv| |sv mv ev];
      try discriminate; reflexivity.
  - intros P vRef n Hv Hn m'. subst m'. rewrite begin_run. cbn [after].
    rewrite rawToVoltage_run. f_equal. f_equal.
    unfold volts; cbn [sensor reference_voltage resolution].
    destruct Hv as [-> | ->], Hn as [-> | ->]; vm_compute; reflexivity.
Qed.

Lemma rawToVoltage_formula_witness :
  let m := bench AVR (flit 33 10) 4095 0 in
  (exists z, rawToVoltage 0 m = Some (z, m) /\ is_zero z = true) /\
  rawToVoltage 4095 m = Some (flit 33 10, m).
Proof.
  split.
  - apply (proj1 (proj2 (rawToVoltage_formula 0 (bench AVR (flit 33 10) 4095 0)))).
    + unfold UINT16_MAX; vm_compute; split; discriminate.
    + reflexivity.
  - apply (proj2 (proj2 (rawToVoltage_formula 0 (machine0 AVR 0)))
             AVR (flit 33 10) 4095); [left|right]; reflexivity.
Defined.

(** ** Temperature scales *)

(** C9. On a steady input, where every acquisition of [readCelsius] gives
    the same value [c], [readFahrenheit] returns [c * 9.0 / 5.0 + 32.0]
    and [readKelvin] returns [c + 273.15], the operations being those of
    the source: carried out in [double] and converted to [float]. *)
Theorem unit_conversions (P : Platform) (m : Machine) (x : Z) :
  avg_sample (sensor m) <> 0 ->
  (forall t, adc (board m) (analog_pin (sensor m)) t = x) ->
  exists c : float,
    (forall m2 : Machine,
       sensor m2 = sensor m ->
       (forall t, adc (board m2) (analog_pin (sensor m)) t = x) ->
       result (readCelsius P m2) = Some c) /\
    readFahrenheit P m =
    Some (to_float
            (dadd P (ddiv P (dmul P (to_double P c) (dbl P 9)) (dbl P 5))
               (dbl P 32)),
          acquired m) /\
    readKelvin P m =
    Some (to_float (dadd P (to_double P c) (dec P 27315 100)), acquired m).
Proof.
  intros Hn Hx. exists (reading P m).
  split; [|split].
  - intros m2 Hs H2.
    rewrite readCelsius_run by (rewrite Hs; exact Hn).
    cbn [result]. unfold reading. rewrite Hs.
    now rewrite (mean_count_steady P m m2 x Hs Hx H2).
  - rewrite readFahrenheit_run by exact Hn. unfold fahrenheit. reflexivity.
  - rewrite readKelvin_run by exact Hn. unfold kelvin. reflexivity.
Qed.

Lemma unit_conversions_witness :
  exists c : float,
    (forall m2 : Machine,
       sensor m2 = sensor (bench ILP32 (flit 33 10) 4095 1705) ->
       (forall t, adc (board m2) 14 t = 1705) ->
       result (readCelsius ILP32 m2) = Some c) /\
    readFahrenheit ILP32 (bench ILP32 (flit 33 10) 4095 1705) =
    Some (fahrenheit ILP32 c, acquired (bench ILP32 (flit 33 10) 4095 1705)) /\
    readKelvin ILP32 (bench ILP32 (flit 33 10) 4095 1705) =
    Some (kelvin ILP32 c, acquired (bench ILP32 (flit 33 10) 4095 1705)).
Proof.
  apply (unit_conversions ILP32 (bench ILP32 (flit 33 10) 4095 1705) 1705).
  - vm_compute; discriminate.
  - intros t; reflexivity.
Defined.

(** The three scales at a steady count of 1705 of 4095 at 3.3 V:
    24.798 degrees Celsius, 76.637 Fahrenheit, 297.948 Kelvin. *)
Example scales_at_1705 :
  let m := bench ILP32 (flit 33 10) 4095 1705 in
  result (readCelsius ILP32 m) = Some (S754_finite false 13001575 (-19)) /\
  result (readFahrenheit ILP32 m) = Some (S754_finite false 10045013 (-17)) /\
  result (readKelvin ILP32 m) = Some (S754_finite false 9763178 (-15)).
Proof. vm_compute. repeat split. Qed.

(** ** Initialization *)

(** C10. [begin] leaves [offset_voltage] and [sensitivity] as they are: of
    the fields that are not its parameters it assigns only [offset],
    [gain], [avg_sample] and [filtered_temperature].  So the two keep the
    defaults of the header, 1.25 V and 0.005 V/degree, through a first
    [begin], and values given by [setOffsetVoltage] and [setSensitivity]
    survive a later [begin]. *)
Theorem begin_keeps_amplifier_parameters
  (P : Platform) (pin : Z) (vRef : float) (n : Z) (m : Machine) :
  (exists m',
     begin P pin vRef n m = Some (tt, m') /\
     offset_voltage (sensor m') = offset_voltage (sensor m) /\
     sensitivity (sensor m') = sensitivity (sensor m) /\
     sensor m' =
     set_avg_sample 10
       (set_filtered_temperature NAN
          (set_gain (float_of_int 1)
             (set_offset (float_of_int 0)
                (set_resolution n
                   (set_reference_voltage vRef
                      (set_analog_pin pin (sensor m)))))))) /\
  (forall (mem : Sensor) (b : Board),
     let fresh := {| sensor := AD849x_7Semi P mem; board := b |} in
     offset_voltage (sensor fresh) = c_1_25 /\
     sensitivity (sensor fresh) = c_0_005 /\
     offset_voltage (sensor (after (begin P pin vRef n fresh) fresh)) = c_1_25 /\
     sensitivity (sensor (after (begin P pin vRef n fresh) fresh)) = c_0_005) /\
  (forall (x y : float),
     let configured :=
       after (setSensitivity y (after (setOffsetVoltage x m) m)) m in
     offset_voltage (sensor (after (begin P pin vRef n configured) configured)) = x /\
     sensitivity (sensor (after (begin P pin vRef n configured) configured)) = y).
Proof.
  split; [|split].
  - eexists. split; [apply begin_run|]. repeat split.
  - intros mem b fresh. subst fresh. rewrite begin_run. cbn [after sensor].
    destruct (constructor_defaults P mem) as (H1 & H2 & _).
    repeat split; assumption.
  - intros x y configured. subst configured. rewrite begin_run.
    repeat split.
Qed.

(** * Further properties *)

(** ** Floating point: values that are not finite *)

Lemma fp_sub_diag (f : format) (x : spec_float) :
  is_finite x = true -> fp_sub f x x = S754_zero false.
Proof.
  destruct x as [s|s| |s m e]; try discriminate; intros _.
  - now destruct s.
  - unfold fp_sub, SFsub. rewrite Z.sub_diag. reflexivity.
Qed.

Lemma fp_sub_nonfinite (f : format) (x y : spec_float) :
  is_finite x = false -> is_finite (fp_sub f x y) = false.
Proof.
  destruct x as [s|s| |s m e]; try discriminate; intros _;
    destruct y as [t|t| |t n d]; try reflexivity;
    destruct s, t; reflexivity.
Qed.

Lemma fp_div_nonfinite (f : format) (x y : spec_float) :
  is_finite x = false -> is_finite (fp_div f x y) = false.
Proof.
  destruct x as [s|s| |s m e]; try discriminate; intros _;
    destruct y as [t|t| |t n d]; reflexivity.
Qed.

Lemma fp_div_by_zero (f : format) (x y : spec_float) :
  is_zero y = true -> is_finite (fp_div f x y) = false.
Proof.
  destruct y as [t|t| |t n d]; try discriminate; intros _;
    destruct x as [s|s| |s m e]; reflexivity.
Qed.

Lemma fp_mul_nonfinite (f : format) (x y : spec_float) :
  is_finite x = false -> is_finite (fp_mul f x y) = false.
Proof.
  destruct x as [s|s| |s m e]; try discriminate; intros _;
    destruct y as [t|t| |t n d]; reflexivity.
Qed.

Lemma fp_add_nonfinite (f : format) (x y : spec_float) :
  is_finite x = false -> is_finite (fp_add f x y) = false.
Proof.
  destruct x as [s|s| |s m e]; try discriminate; intros _;
    destruct y as [t|t| |t n d]; try reflexivity;
    destruct s, t; reflexivity.
Qed.

Lemma fp_conv_nonfinite (f : format) (x : spec_float) :
  is_finite x = false -> fp_conv f x = x.
Proof. destruct x; try discriminate; reflexivity. Qed.

Lemma fp_lt_infinity_l (y : spec_float) : fp_lt (S754_infinity false) y = false.
Proof. destruct y as [t|t| |t n d]; try reflexivity. now destruct t. Qed.

Lemma celsius_nonfinite (s : Sensor) (v : float) :
  is_finite v = false -> is_finite (celsius s v) = false.
Proof.
  intros H. unfold celsius.
  apply fp_add_nonfinite, fp_mul_nonfinite, fp_div_nonfinite, fp_sub_nonfinite.
  exact H.
Qed.

Lemma in_window_nonfinite (P : Platform) (vref v : float) :
  is_finite v = false -> in_window P vref v = false.
Proof.
  intros H. unfold in_window, to_double.
  rewrite (fp_conv_nonfinite _ v H).
  destruct v as [s|[]| |s m e]; try discriminate.
  - destruct P; reflexivity.
  - rewrite fp_lt_infinity_l. apply andb_false_r.
  - destruct P; reflexivity.
Qed.

Lemma blend_nan (P : Platform) (alpha c previous : float) :
  isnan c = true \/ isnan alpha = true -> blend P alpha c previous = NAN.
Proof.
  intros H. unfold blend.
  assert (E : (alpha * c)%flt = S754_nan).
  { destruct H as [H|H].
    - destruct c; try discriminate. now destruct alpha.
    - destruct alpha; try discriminate. reflexivity. }
  rewrite E. reflexivity.
Qed.

Lemma fp_mul_nonfinite_r (f : format) (x y : spec_float) :
  is_finite y = false -> is_finite (fp_mul f x y) = false.
Proof.
  destruct y as [t|t| |t n d]; try discriminate; intros _;
    destruct x as [s|s| |s m e]; reflexivity.
Qed.

Lemma fahrenheit_nonfinite (P : Platform) (c : float) :
  is_finite c = false -> is_finite (fahrenheit P c) = false.
Proof.
  intros H. unfold fahrenheit, to_double, to_float.
  rewrite (fp_conv_nonfinite _ c H).
  assert (E : is_finite
                (dadd P (ddiv P (dmul P c (dbl P 9)) (dbl P 5)) (dbl P 32)) = false)
    by (apply fp_add_nonfinite, fp_div_nonfinite, fp_mul_nonfinite; exact H).
  now rewrite (fp_conv_nonfinite _ _ E).
Qed.

Lemma kelvin_nonfinite (P : Platform) (c : float) :
  is_finite c = false -> is_finite (kelvin P c) = false.
Proof.
  intros H. unfold kelvin, to_double, to_float.
  rewrite (fp_conv_nonfinite _ c H).
  assert (E : is_finite (dadd P c (dec P 27315 100)) = false)
    by (apply fp_add_nonfinite; exact H).
  now rewrite (fp_conv_nonfinite _ _ E).
Qed.

Lemma celsius_zero_sensitivity (s : Sensor) (v : float) :
  is_zero (sensitivity s) = true -> is_finite (celsius s v) = false.
Proof.
  intros H. unfold celsius.
  apply fp_add_nonfinite, fp_mul_nonfinite, fp_div_by_zero. exact H.
Qed.

Lemma volts_nonfinite (s : Sensor) (raw : Z) :
  resolution s = 0 \/ is_finite (reference_voltage s) = false ->
  is_finite (volts s raw) = false.
Proof.
  intros [H|H]; unfold volts.
  - rewrite H. now apply fp_div_by_zero.
  - now apply fp_div_nonfinite, fp_mul_nonfinite_r.
Qed.

(** ** Raw acquisition: helper bounds *)

Lemma sum_samples_between (f : nat -> Z) (lo hi : Z) (k : nat) :
  (forall t, lo <= f t <= hi) ->
  forall t, Z.of_nat k * lo <= sum_samples f t k <= Z.of_nat k * hi.
Proof.
  intros Hf. induction k as [|k IH]; intros t.
  - cbn. lia.
  - cbn [sum_samples]. specialize (IH (S t)). specialize (Hf t). lia.
Qed.

Lemma mean_count_between (P : Platform) (m : Machine) (lo hi : Z) :
  sample_ok (sensor m) ->
  0 <= lo -> hi <= UINT16_MAX -> hi <= INT_MAX P ->
  (forall t, lo <= adc (board m) (analog_pin (sensor m)) t <= hi) ->
  lo <= mean_count P m <= hi.
Proof.
  intros [Hlo Hhi] H0 H16 HI Hf. unfold mean_count.
  set (n := avg_sample (sensor m)) in *.
  set (f := adc (board m) (analog_pin (sensor m))) in *.
  pose proof (Hf O) as Hf0.
  pose proof (sum_samples_between f lo hi (Z.to_nat n) Hf (conversions (board m))) as B.
  rewrite Z2Nat.id in B by lia.
  assert (HnM : n * hi <= 200 * hi) by (apply Z.mul_le_mono_nonneg_r; lia).
  assert (Hnlo : 0 <= n * lo) by (apply Z.mul_nonneg_nonneg; lia).
  rewrite (accumulate_no_wrap P f hi (Z.to_nat n)); try lia.
  - rewrite Z.add_0_l.
    assert (Hq : lo <= sum_samples f (conversions (board m)) (Z.to_nat n) / n <= hi).
    { split.
      - apply Z.div_le_lower_bound; lia.
      - apply Z.div_le_upper_bound; lia. }
    rewrite to_int_small by lia. exact Hq.
  - intros t. specialize (Hf t). lia.
  - rewrite Z2Nat.id by lia. unfold UINT16_MAX in H16. lia.
Qed.

(** ** Calls: helper lemmas *)

Lemma call_keeps_sampling (P : Platform) (c : Call) (m : Machine) :
  well_typed P c ->
  sample_ok (sensor m) ->
  exists (v : Value) (m' : Machine),
    call P c m = Some (v, m') /\ sample_ok (sensor m').
Proof.
  intros Hty Hok.
  assert (Hn : avg_sample (sensor m) <> 0) by (unfold sample_ok in Hok; lia).
  enough (exists (v : Value) (m' : Machine),
             call P c m = Some (v, m') /\
             sample_ok (sensor m') /\
             resolution (sensor m') = resolution_after c (sensor m) /\
             sensitivity (sensor m') = sensitivity_after c (sensor m) /\
             (invariant (sensor m') <->
              resolution_after c (sensor m) > 0 /\
              is_zero (sensitivity_after c (sensor m)) = false))
    as (v & m' & Hrun & Hs & _) by (exists v, m'; split; assumption).
  destruct c; cbn [well_typed] in Hty;
    try (keeps_fields; fail).
  - runs_as (begin_run P analogPin vRef adcResolution m).
    unfold sample_ok; cbn; lia.
  - runs_as (setSampling_run samples m).
    unfold sample_ok; cbn [sensor avg_sample set_avg_sample].
    rewrite clamped_spec by lia. lia.
  - runs_as (readRaw_run P m Hn). exact Hok.
  - runs_as (readVoltage_run P m Hn). exact Hok.
  - runs_as (readCelsius_run P m Hn). exact Hok.
  - runs_as (readFahrenheit_run P m Hn). exact Hok.
  - runs_as (readKelvin_run P m Hn). exact Hok.
  - runs_as (calibrate_run P actualTempC m Hn). exact Hok.
  - runs_as (readFilteredTemperatureC_run P alpha m Hn). exact Hok.
  - runs_as (FaultDetect_run P m Hn). exact Hok.
Qed.

(** The machine a completed call leaves, from the equation [L] of its
    method. *)
Ltac leaves H m L :=
  unfold call, void, int, flt in H;
  rewrite (bind_Some _ _ _ _ _ L) in H;
  apply (f_equal (fun r => after r m)) in H;
  cbv beta iota delta [after ret] in H;
  subst.

Ltac leaves_pure H m :=
  apply (f_equal (fun r => after r m)) in H;
  cbv beta iota delta
    [after call void int flt bind ret this assign setVref setADCResolution
     setOffsetVoltage setSensitivity getSampling rawToVoltage
     voltageToCelsius] in H;
  subst.

Lemma call_effect (P : Platform) (c : Call) (m : Machine) (v : Value) (m' : Machine) :
  avg_sample (sensor m) <> 0 ->
  call P c m = Some (v, m') ->
  changes_only c (sensor m) (sensor m') /\
  conversions (board m') =
  ((if acquires c then Z.to_nat (avg_sample (sensor m)) else 0)
   + conversions (board m))%nat /\
  adc (board m') = adc (board m) /\
  pin_modes (board m') = pin_modes_after c (board m) /\
  gain (sensor m') =
  match c with Call_begin _ _ _ => float_of_int 1 | _ => gain (sensor m) end.
Proof.
  intros Hn H.
  destruct c.
  - leaves H m (begin_run P analogPin vRef adcResolution m). repeat split.
  - leaves_pure H m. repeat split.
  - leaves_pure H m. repeat split.
  - leaves_pure H m. repeat split.
  - leaves_pure H m. repeat split.
  - leaves H m (setSampling_run samples m). repeat split.
  - leaves_pure H m. repeat split.
  - leaves H m (readRaw_run P m Hn). repeat split.
  - leaves_pure H m. repeat split.
  - leaves H m (readVoltage_run P m Hn). repeat split.
  - leaves_pure H m. repeat split.
  - leaves H m (readCelsius_run P m Hn). repeat split.
  - leaves H m (readFahrenheit_run P m Hn). repeat split.
  - leaves H m (readKelvin_run P m Hn). repeat split.
  - leaves H m (calibrate_run P actualTempC m Hn). repeat split.
  - leaves H m (readFilteredTemperatureC_run P alpha m Hn). repeat split.
  - leaves H m (FaultDetect_run P m Hn). repeat split.
Qed.

(** A property of the object that every call keeps is kept by every
    sequence of calls, and the sequence runs to its end. *)
Lemma run_calls_preserves (P : Platform) (I : Sensor -> Prop) :
  (forall (c : Call) (m : Machine) (v : Value) (m' : Machine),
     well_typed P c -> sample_ok (sensor m) -> I (sensor m) ->
     call P c m = Some (v, m') -> I (sensor m')) ->
  forall (cs : list Call) (m : Machine),
    Forall (well_typed P) cs ->
    sample_ok (sensor m) -> I (sensor m) ->
    exists (vs : list Value) (m' : Machine),
      run_calls P cs m = Some (vs, m') /\
      length vs = length cs /\
      sample_ok (sensor m') /\ I (sensor m').
Proof.
  intros Hstep cs. induction cs as [|c cs IH]; intros m Hty Hok HI.
  - exists [], m. split; [reflexivity|]. split; [reflexivity|]. now split.
  - inversion Hty as [|c0 cs0 Hc Hcs]; subst.
    destruct (call_keeps_sampling P c m Hc Hok) as (v & m1 & Hrun & Hok1).
    pose proof (Hstep c m v m1 Hc Hok HI Hrun) as HI1.
    destruct (IH m1 Hcs Hok1 HI1) as (vs & m' & Hrest & Hlen & Hok' & HI').
    exists (v :: vs), m'. split; [|split; [|now split]].
    + cbn [run_calls]. rewrite (bind_Some _ _ _ _ _ Hrun).
      rewrite (bind_Some _ _ _ _ _ Hrest). reflexivity.
    + cbn. now rewrite Hlen.
Qed.

(** ** Sequences of calls *)

(** X1. The only undefined behaviour of the class is the division by
    [avg_sample] in [readRaw], which occurs exactly when [avg_sample] is
    0.  From an object whose sampling count is in 1..200 (as the
    constructor and [begin] leave it) no sequence of calls of the public
    interface reaches it: every call of the sequence returns, and the
    count is in 1..200 at the end. *)
Theorem calls_never_trap (P : Platform) (cs : list Call) (m : Machine) :
  Forall (well_typed P) cs ->
  sample_ok (sensor m) ->
  (forall m0 : Machine, readRaw P m0 = None <-> avg_sample (sensor m0) = 0) /\
  exists (vs : list Value) (m' : Machine),
    run_calls P cs m = Some (vs, m') /\
    length vs = length cs /\
    sample_ok (sensor m').
Proof.
  intros Hty Hok. split.
  - intros m0. split.
    + intros Hnone. destruct (Z.eq_dec (avg_sample (sensor m0)) 0) as [E|E];
        [exact E|].
      rewrite readRaw_run in Hnone by exact E. discriminate.
    + intros E. unfold readRaw, bind, this. rewrite E.
      cbn [Z.to_nat readRaw_loop ret]. rewrite E. reflexivity.
  - destruct (run_calls_preserves P (fun _ => True) (fun _ _ _ _ _ _ _ _ => I)
                cs m Hty Hok I) as (vs & m' & Hrun & Hlen & Hok' & _).
    exists vs, m'. split; [exact Hrun|]. split; [exact Hlen | exact Hok'].
Qed.

Lemma calls_never_trap_witness :
  exists (vs : list Value) (m' : Machine),
    run_calls AVR
      [Call_setSampling 0; Call_readCelsius; Call_calibrate (float_of_int 100);
       Call_setSampling 255; Call_FaultDetect]
      (bench AVR (flit 33 10) 4095 1705) = Some (vs, m') /\
    length vs = 5%nat /\
    sample_ok (sensor m').
Proof.
  apply (calls_never_trap AVR
           [Call_setSampling 0; Call_readCelsius; Call_calibrate (float_of_int 100);
            Call_setSampling 255; Call_FaultDetect]
           (bench AVR (flit 33 10) 4095 1705)).
  - repeat constructor; cbn; lia.
  - unfold sample_ok. vm_compute. split; discriminate.
Defined.

(** X2. The class has no way to set [gain]: [begin] assigns 1.0 to it and
    no other method assigns it.  Once it is 1.0 it is 1.0 after every
    sequence of calls, so the calibration of the readings is by the
    offset alone. *)
Theorem gain_stays_one (P : Platform) (cs : list Call) (m : Machine) :
  Forall (well_typed P) cs ->
  sample_ok (sensor m) ->
  gain (sensor m) = float_of_int 1 ->
  exists (vs : list Value) (m' : Machine),
    run_calls P cs m = Some (vs, m') /\
    gain (sensor m') = float_of_int 1.
Proof.
  intros Hty Hok Hg.
  destruct (run_calls_preserves P (fun s => gain s = float_of_int 1))
    with (cs := cs) (m := m) as (vs & m' & Hrun & _ & _ & Hg'); try assumption.
  - intros c m0 v m1 _ Hok0 Hg0 Hrun.
    assert (Hn : avg_sample (sensor m0) <> 0) by (unfold sample_ok in Hok0; lia).
    destruct (call_effect P c m0 v m1 Hn Hrun) as (_ & _ & _ & _ & E).
    rewrite E. destruct c; try exact Hg0. reflexivity.
  - exists vs, m'. split; assumption.
Qed.

Lemma gain_stays_one_witness :
  exists (vs : list Value) (m' : Machine),
    run_calls ILP32
      [Call_calibrate (float_of_int 100); Call_readFilteredTemperatureC (flit 1 10);
       Call_setSensitivity (flit 5 1000)]
      (bench ILP32 (flit 33 10) 4095 1705) = Some (vs, m') /\
    gain (sensor m') = float_of_int 1.
Proof.
  apply (gain_stays_one ILP32
           [Call_calibrate (float_of_int 100);
            Call_readFilteredTemperatureC (flit 1 10);
            Call_setSensitivity (flit 5 1000)]
           (bench ILP32 (flit 33 10) 4095 1705)).
  - repeat constructor.
  - unfold sample_ok. vm_compute. split; discriminate.
  - reflexivity.
Defined.

(** ** What a call touches *)

(** X3. The reading methods ([getSampling], [readRaw], [rawToVoltage],
    [readVoltage], [voltageToCelsius], [readCelsius], [readFahrenheit],
    [readKelvin], [FaultDetect]) leave every field of the object as it
    was; [calibrate] assigns [offset] only, [readFilteredTemperatureC]
    assigns [filtered_temperature] only, and each setter assigns its own
    field only. *)
Theorem calls_change_only_their_field (P : Platform) (c : Call) (m : Machine) :
  well_typed P c ->
  sample_ok (sensor m) ->
  exists (v : Value) (m' : Machine),
    call P c m = Some (v, m') /\
    changes_only c (sensor m) (sensor m').
Proof.
  intros Hty Hok.
  assert (Hn : avg_sample (sensor m) <> 0) by (unfold sample_ok in Hok; lia).
  destruct (call_keeps_sampling P c m Hty Hok) as (v & m' & Hrun & _).
  exists v, m'. split; [exact Hrun|].
  exact (proj1 (call_effect P c m v m' Hn Hrun)).
Qed.

Lemma calls_change_only_their_field_witness :
  exists (v : Value) (m' : Machine),
    call AVR Call_readFahrenheit (bench AVR (flit 33 10) 4095 1705) = Some (v, m') /\
    sensor m' = sensor (bench AVR (flit 33 10) 4095 1705).
Proof.
  apply (calls_change_only_their_field AVR Call_readFahrenheit
           (bench AVR (flit 33 10) 4095 1705)).
  - exact I.
  - unfold sample_ok. vm_compute. split; discriminate.
Defined.

(** X4. Nothing is cached: each of [readRaw], [readVoltage],
    [readCelsius], [readFahrenheit], [readKelvin], [calibrate],
    [readFilteredTemperatureC] and [FaultDetect] makes exactly
    [avg_sample] conversions at every call, the other methods make none.
    The ADC input is never altered, and only [begin] calls [pinMode]:
    once, with INPUT, on the pin it is given. *)
Theorem calls_cost (P : Platform) (c : Call) (m : Machine) :
  well_typed P c ->
  sample_ok (sensor m) ->
  exists (v : Value) (m' : Machine),
    call P c m = Some (v, m') /\
    conversions (board m') =
    ((if acquires c then Z.to_nat (avg_sample (sensor m)) else 0)
     + conversions (board m))%nat /\
    adc (board m') = adc (board m) /\
    pin_modes (board m') = pin_modes_after c (board m).
Proof.
  intros Hty Hok.
  assert (Hn : avg_sample (sensor m) <> 0) by (unfold sample_ok in Hok; lia).
  destruct (call_keeps_sampling P c m Hty Hok) as (v & m' & Hrun & _).
  exists v, m'. split; [exact Hrun|].
  destruct (call_effect P c m v m' Hn Hrun) as (_ & Hc & Ha & Hp & _).
  split; [exact Hc|]. split; [exact Ha | exact Hp].
Qed.

Lemma calls_cost_witness :
  exists (v : Value) (m' : Machine),
    call AVR Call_readKelvin (bench AVR (flit 33 10) 4095 1705) = Some (v, m') /\
    conversions (board m') = 10%nat.
Proof.
  destruct (calls_cost AVR Call_readKelvin (bench AVR (flit 33 10) 4095 1705))
    as (v & m' & Hrun & Hc & _).
  - exact I.
  - unfold sample_ok. vm_compute. split; discriminate.
  - exists v, m'. split; [exact Hrun | exact Hc].
Defined.

(** ** Averaging *)

(** X5. The mean that [readRaw] returns lies between the smallest and the
    largest sample of the acquisition: when every sample on the pin lies
    in [lo, hi], with [0 <= lo] and [hi] a count that a 16-bit
    [resolution] and an [int] can hold, so does the result. *)
Theorem readRaw_between_extremes (P : Platform) (m : Machine) (lo hi : Z) :
  sample_ok (sensor m) ->
  0 <= lo -> hi <= UINT16_MAX -> hi <= INT_MAX P ->
  (forall t, lo <= adc (board m) (analog_pin (sensor m)) t <= hi) ->
  exists r : Z,
    readRaw P m = Some (r, acquired m) /\ lo <= r <= hi.
Proof.
  intros Hok H0 H16 HI Hf.
  exists (mean_count P m). split.
  - apply readRaw_run. unfold sample_ok in Hok. lia.
  - now apply mean_count_between.
Qed.

Lemma readRaw_between_extremes_witness :
  exists r : Z,
    readRaw AVR {| sensor := AD849x_7Semi AVR blank;
                   board := {| adc := fun _ t => 500 + Z.of_nat t mod 3;
                               conversions := O; pin_modes := [] |} |}
    = Some (r, acquired {| sensor := AD849x_7Semi AVR blank;
                           board := {| adc := fun _ t => 500 + Z.of_nat t mod 3;
                                       conversions := O; pin_modes := [] |} |})
    /\ 500 <= r <= 502.
Proof.
  apply (readRaw_between_extremes AVR
           {| sensor := AD849x_7Semi AVR blank;
              board := {| adc := fun _ t => 500 + Z.of_nat t mod 3;
                          conversions := O; pin_modes := [] |} |} 500 502).
  - unfold sample_ok. vm_compute. split; discriminate.
  - lia.
  - unfold UINT16_MAX. lia.
  - unfold INT_MAX. cbn. lia.
  - intros t. cbv beta iota delta [board adc].
    pose proof (Z.mod_pos_bound (Z.of_nat t) 3 eq_refl). lia.
Defined.

(** X6. On a steady input [x] the sampling count has no effect on the
    readings: after [setSampling n], for every [n] in 1..200, [readRaw]
    returns [x] itself and [readVoltage] and [readCelsius] return the
    conversions of [x]. *)
Theorem steady_reading_ignores_sampling
  (P : Platform) (m : Machine) (x n : Z) :
  1 <= n <= 200 ->
  0 <= x <= UINT16_MAX -> x <= INT_MAX P ->
  (forall t, adc (board m) (analog_pin (sensor m)) t = x) ->
  let m' := after (setSampling n m) m in
  readRaw P m' = Some (x, acquired m') /\
  readVoltage P m' = Some (volts (sensor m) x, acquired m') /\
  readCelsius P m' = Some (celsius (sensor m) (volts (sensor m) x), acquired m').
Proof.
  intros Hn Hx HI Hf m'.
  assert (Hm' : m' = {| sensor := set_avg_sample n (sensor m); board := board m |}).
  { unfold m'. rewrite setSampling_run. cbn [after].
    rewrite clamped_spec by lia.
    replace (Z.max 1 (Z.min n 200)) with n by lia. reflexivity. }
  assert (Hok : sample_ok (sensor m')) by (rewrite Hm'; exact Hn).
  assert (Hne : avg_sample (sensor m') <> 0) by (unfold sample_ok in Hok; lia).
  assert (Hmean : mean_count P m' = x).
  { assert (x <= mean_count P m' <= x); [|lia].
    apply mean_count_between; try lia; try exact Hok.
    intros t. rewrite Hm'. cbn [sensor board analog_pin set_avg_sample].
    rewrite Hf. lia. }
  split; [|split].
  - rewrite readRaw_run by exact Hne. now rewrite Hmean.
  - rewrite readVoltage_run by exact Hne. rewrite Hmean.
    rewrite Hm'. reflexivity.
  - rewrite readCelsius_run by exact Hne. unfold reading. rewrite Hmean.
    rewrite Hm'. reflexivity.
Qed.

Lemma steady_reading_ignores_sampling_witness :
  readRaw ILP32 (after (setSampling 200 (bench ILP32 (flit 33 10) 4095 1705))
                   (bench ILP32 (flit 33 10) 4095 1705))
  = Some (1705,
          acquired (after (setSampling 200 (bench ILP32 (flit 33 10) 4095 1705))
                      (bench ILP32 (flit 33 10) 4095 1705))).
Proof.
  apply (steady_reading_ignores_sampling ILP32
           (bench ILP32 (flit 33 10) 4095 1705) 1705 200).
  - lia.
  - unfold UINT16_MAX. lia.
  - unfold INT_MAX. cbn. lia.
  - intros t. reflexivity.
Defined.

(** X7. [setSampling] and [getSampling] round trip: on a machine whose
    count is in 1..200, storing the count that [getSampling] returns
    leaves the machine exactly as it was; this is so in particular after
    any [setSampling n], whose stored count is what a further
    [setSampling] would store again. *)
Theorem setSampling_getSampling_round_trip (m : Machine) (n : Z) :
  sample_ok (sensor m) ->
  0 <= n <= 255 ->
  (exists k : Z, getSampling m = Some (k, m) /\ setSampling k m = Some (tt, m)) /\
  (let m1 := after (setSampling n m) m in
   exists k : Z,
     1 <= k <= 200 /\
     getSampling m1 = Some (k, m1) /\ setSampling k m1 = Some (tt, m1)).
Proof.
  assert (Hback : forall m0 : Machine,
             sample_ok (sensor m0) ->
             setSampling (avg_sample (sensor m0)) m0 = Some (tt, m0)).
  { intros m0 [Hlo Hhi].
    rewrite setSampling_run, clamped_spec by lia.
    replace (Z.max 1 (Z.min (avg_sample (sensor m0)) 200))
      with (avg_sample (sensor m0)) by lia.
    destruct m0 as [s b]. destruct s. reflexivity. }
  intros Hok Hn. split.
  - exists (avg_sample (sensor m)). split; [reflexivity|]. now apply Hback.
  - intros m1.
    assert (Hok1 : sample_ok (sensor m1)).
    { unfold m1, sample_ok. rewrite setSampling_run.
      cbn [after sensor avg_sample set_avg_sample].
      rewrite clamped_spec by lia. lia. }
    exists (avg_sample (sensor m1)).
    split; [exact Hok1|]. split; [reflexivity|]. now apply Hback.
Qed.

Lemma setSampling_getSampling_round_trip_witness :
  exists k : Z,
    getSampling (bench AVR (flit 33 10) 4095 1705)
    = Some (k, bench AVR (flit 33 10) 4095 1705) /\
    setSampling k (bench AVR (flit 33 10) 4095 1705)
    = Some (tt, bench AVR (flit 33 10) 4095 1705).
Proof.
  apply (setSampling_getSampling_round_trip
           (bench AVR (flit 33 10) 4095 1705) 0).
  - unfold sample_ok. vm_compute. split; discriminate.
  - lia.
Defined.

(** ** Degenerate configurations *)

(** X8. A zero [sensitivity] is not rejected and never yields a finite
    temperature: for every voltage [voltageToCelsius] returns an infinity
    or NaN, and so do [readCelsius], [readFahrenheit] and [readKelvin] on
    every input. *)
Theorem zero_sensitivity_gives_no_finite_temperature
  (P : Platform) (v : float) (m : Machine) :
  is_zero (sensitivity (sensor m)) = true ->
  (exists r : float, voltageToCelsius v m = Some (r, m) /\ is_finite r = false) /\
  (avg_sample (sensor m) <> 0 ->
   exists c f k : float,
     readCelsius P m = Some (c, acquired m) /\ is_finite c = false /\
     readFahrenheit P m = Some (f, acquired m) /\ is_finite f = false /\
     readKelvin P m = Some (k, acquired m) /\ is_finite k = false).
Proof.
  intros Hz. split.
  - exists (celsius (sensor m) v). split; [reflexivity|].
    now apply celsius_zero_sensitivity.
  - intros Hn.
    assert (Hc : is_finite (reading P m) = false)
      by now apply celsius_zero_sensitivity.
    exists (reading P m), (fahrenheit P (reading P m)), (kelvin P (reading P m)).
    split; [now apply readCelsius_run|]. split; [exact Hc|].
    split; [now apply readFahrenheit_run|].
    split; [now apply fahrenheit_nonfinite|].
    split; [now apply readKelvin_run | now apply kelvin_nonfinite].
Qed.

Lemma zero_sensitivity_gives_no_finite_temperature_witness :
  exists r : float,
    voltageToCelsius (flit 165 100)
      (after (setSensitivity (float_of_int 0) (bench AVR (flit 33 10) 4095 1705))
         (bench AVR (flit 33 10) 4095 1705))
    = Some (r, after (setSensitivity (float_of_int 0) (bench AVR (flit 33 10) 4095 1705))
                 (bench AVR (flit 33 10) 4095 1705))
    /\ is_finite r = false.
Proof.
  apply (zero_sensitivity_gives_no_finite_temperature AVR (flit 165 100)
           (after (setSensitivity (float_of_int 0) (bench AVR (flit 33 10) 4095 1705))
              (bench AVR (flit 33 10) 4095 1705))).
  reflexivity.
Defined.

(** X9. A maximum count of 0, or a reference voltage that is infinite or
    NaN, is not rejected either: then [rawToVoltage] returns an infinity
    or NaN for every count, no reading of the temperature is finite, and
    [FaultDetect] returns 0. *)
Theorem bad_scale_is_flagged (P : Platform) (raw : Z) (m : Machine) :
  resolution (sensor m) = 0 \/ is_finite (reference_voltage (sensor m)) = false ->
  (exists v : float, rawToVoltage raw m = Some (v, m) /\ is_finite v = false) /\
  (avg_sample (sensor m) <> 0 ->
   (exists c : float,
      readCelsius P m = Some (c, acquired m) /\ is_finite c = false) /\
   FaultDetect P m = Some (0, acquired m)).
Proof.
  intros Hbad. split.
  - exists (volts (sensor m) raw). split; [reflexivity|].
    now apply volts_nonfinite.
  - intros Hn.
    assert (Hv : is_finite (volts (sensor m) (mean_count P m)) = false)
      by now apply volts_nonfinite.
    split.
    + exists (reading P m). split; [now apply readCelsius_run|].
      now apply celsius_nonfinite.
    + rewrite FaultDetect_run by exact Hn.
      now rewrite in_window_nonfinite.
Qed.

Lemma bad_scale_is_flagged_witness :
  FaultDetect ILP32 (bench ILP32 (flit 33 10) 0 2048)
  = Some (0, acquired (bench ILP32 (flit 33 10) 0 2048)).
Proof.
  apply (bad_scale_is_flagged ILP32 0 (bench ILP32 (flit 33 10) 0 2048)).
  - left. reflexivity.
  - vm_compute. discriminate.
Defined.

(** ** Calibration and filtering at the edges *)

(** X10. [calibrate] replaces the offset, it does not adjust it: when the
    sensor already reads the finite reference temperature, whatever the
    offset that makes it do so, [calibrate] with that temperature sets the
    offset to +0 and leaves the other fields alone. *)
Theorem calibrate_at_reference_clears_offset
  (P : Platform) (actualTempC : float) (m : Machine) :
  avg_sample (sensor m) <> 0 ->
  is_finite actualTempC = true ->
  result (readCelsius P m) = Some actualTempC ->
  calibrate P actualTempC m =
  Some (tt, {| sensor := set_offset (S754_zero false) (sensor m);
               board := board (acquired m) |}).
Proof.
  intros Hn Hfin Hread.
  rewrite readCelsius_run in Hread by exact Hn. cbn [result] in Hread.
  apply (f_equal (fun o => match o with Some x => x | None => actualTempC end))
    in Hread.
  rewrite calibrate_run by exact Hn.
  rewrite Hread, fp_sub_diag by exact Hfin. reflexivity.
Qed.

Lemma calibrate_at_reference_clears_offset_witness :
  let m1 := after (calibrate AVR (float_of_int 100) (bench AVR (flit 33 10) 4095 1705))
              (bench AVR (flit 33 10) 4095 1705) in
  offset (sensor m1) = S754_finite false 9856806 (-17) /\
  calibrate AVR (float_of_int 100) m1 =
  Some (tt, {| sensor := set_offset (S754_zero false) (sensor m1);
               board := board (acquired m1) |}).
Proof.
  split; [vm_compute; reflexivity|].
  apply (calibrate_at_reference_clears_offset AVR (float_of_int 100)).
  - vm_compute. discriminate.
  - reflexivity.
  - vm_compute. reflexivity.
Defined.

(** X11. A NaN does not stay in the filter as a value: when the reading
    is NaN, or [alpha] is NaN, [readFilteredTemperatureC] returns NaN and
    stores NaN, which is the mark of an unset filter, so the next call
    starts the filter afresh from its own reading. *)
Theorem filter_nan_unsets (P : Platform) (alpha : float) (m : Machine) :
  avg_sample (sensor m) <> 0 ->
  result (readCelsius P m) = Some NAN \/ alpha = NAN ->
  exists m' : Machine,
    readFilteredTemperatureC P alpha m = Some (NAN, m') /\
    filtered_temperature (sensor m') = NAN /\
    (forall beta : float,
       avg_sample (sensor m') <> 0 /\
       result (readFilteredTemperatureC P beta m')
       = Some (blend P beta (reading P m') (reading P m'))).
Proof.
  intros Hn Hnan.
  assert (Hb : forall previous,
             blend P alpha (reading P m) previous = NAN).
  { intros previous. apply blend_nan. destruct Hnan as [H| ->].
    - left. rewrite readCelsius_run in H by exact Hn. cbn [result] in H.
      apply (f_equal (fun o => match o with Some x => isnan x | None => true end))
        in H. exact H.
    - right. reflexivity. }
  pose proof (readFilteredTemperatureC_run P alpha m Hn) as Hrun.
  cbv zeta in Hrun. rewrite Hb in Hrun.
  eexists. split; [exact Hrun|]. split; [reflexivity|].
  intros beta. split; [exact Hn|].
  rewrite readFilteredTemperatureC_run by exact Hn. reflexivity.
Qed.

Lemma filter_nan_unsets_witness :
  exists m' : Machine,
    readFilteredTemperatureC ILP32 (flit 1 10) (bench ILP32 NAN 4095 1705)
    = Some (NAN, m') /\
    filtered_temperature (sensor m') = NAN.
Proof.
  destruct (filter_nan_unsets ILP32 (flit 1 10) (bench ILP32 NAN 4095 1705))
    as (m' & Hrun & Hf & _).
  - vm_compute. discriminate.
  - left. vm_compute. reflexivity.
  - exists m'. split; [exact Hrun | exact Hf].
Defined.
